(** * Adjacency SID TLV of package sr (pkg/sr/sr-adjacencysid.go)

    A shallow embedding of the binary decoder [UnmarshalAdjacencySIDTLV], of
    the JSON builder [BuildAdjacencySID] and of the three flag types with
    their [MarshalJSON] methods, followed by the properties of the
    specification that concern them. *)

From Stdlib Require Import ZArith NArith Lia.
From Stdlib Require Import Strings.Byte Strings.Ascii Strings.String.
From stdpp Require Import base option list gmap strings.

(** ** The Go runtime: panics, indexing, slicing *)

(** A Go call either returns or panics.  The three run-time panics below are
    the ones the slice operations of the decoder can raise. *)
Inductive panic :=
| IndexOutOfRange
| SliceBoundsOutOfRange
| MakeSliceLenOutOfRange.

Inductive outcome (A : Type) :=
| Returns (a : A)
| Panics (p : panic).
Arguments Returns {A} a.
Arguments Panics {A} p.

#[global] Instance outcome_ret : MRet outcome := @Returns.
#[global] Instance outcome_bind : MBind outcome :=
  fun A B k m => match m with Returns a => k a | Panics p => Panics p end.

(** [len(s)] as a Go [int]. *)
Definition len {A} (s : list A) : Z := Z.of_nat (length s).

(** [s[i]]: panics unless [0 <= i < len(s)]. *)
Definition index {A} (s : list A) (i : Z) : outcome A :=
  if (i <? 0)%Z then Panics IndexOutOfRange
  else match s !! Z.to_nat i with
       | Some x => Returns x
       | None => Panics IndexOutOfRange
       end.

(** [make([]byte, n)]: panics on a negative length, zero-filled otherwise. *)
Definition make (n : Z) : outcome (list byte) :=
  if (n <? 0)%Z then Panics MakeSliceLenOutOfRange
  else Returns (replicate (Z.to_nat n) x00).

(** [s[lo:hi]].  Go checks [0 <= lo <= hi <= cap(s)]; the decoder only ever
    slices up to [len(s)], and a slice is modelled by its elements, so the
    capacity is taken to be the length. *)
Definition slice {A} (s : list A) (lo hi : Z) : outcome (list A) :=
  if ((0 <=? lo)%Z && (lo <=? hi)%Z && (hi <=? len s)%Z)%bool
  then Returns (take (Z.to_nat (hi - lo)) (drop (Z.to_nat lo) s))
  else Panics SliceBoundsOutOfRange.

(** [copy(dst, src)]: overwrites the first [min(len(dst), len(src))]
    elements of [dst]; the result is the content of [dst] afterwards. *)
Definition copy {A} (dst src : list A) : list A :=
  let n := Nat.min (length dst) (length src) in
  take n src ++ drop n dst.

(** ** Errors and early return *)

(** The errors [encoding/json] hands back: invalid JSON text, a JSON value
    that does not fit the Go target, and a base64 string that does not
    decode. *)
Inductive error :=
| SyntaxError
| UnmarshalTypeError
| CorruptInputError.

(** A computation in which [if err != nil { return nil, err }] follows every
    fallible call. *)
Inductive result (A : Type) :=
| Ok (a : A)
| Err (e : error).
Arguments Ok {A} a.
Arguments Err {A} e.

#[global] Instance result_ret : MRet result := @Ok.
#[global] Instance result_bind : MBind result :=
  fun A B k m => match m with Ok a => k a | Err e => Err e end.

(** The Go pair [(value, error)] a function returns: [(v, nil)] on success
    and [(nil, err)] on an early return. *)
Definition returned {A} (r : result A) : option A * option error :=
  match r with
  | Ok a => (Some a, None)
  | Err e => (None, Some e)
  end.

(** ** Protocol identifiers *)

(** Modelled from the spec: the type [base.ProtoID] and its constants are
    declared in package [base], outside this file.  The decoders only
    compare a tag with the four constants [ISISL1], [ISISL2], [OSPFv2] and
    [OSPFv3], which a Go [switch] requires to be pairwise distinct; every
    other value of the type is [OtherProto], with its numeric code. *)
Inductive ProtoID :=
| ISISL1
| ISISL2
| OSPFv2
| OSPFv3
| OtherProto (code : N).

Definition recognized (protoID : ProtoID) : bool :=
  match protoID with
  | OtherProto _ => false
  | _ => true
  end.

(** ** The part of [encoding/json] the package calls *)

(** A JSON number as its literal: [Integer z] is the plain decimal spelling
    of [z] (digits with an optional minus sign), [Decimal lit] any other
    literal (a fraction, an exponent, or [-0]). *)
Inductive number :=
| Integer (z : Z)
| Decimal (lit : string).

#[local] Set Warnings "-register-all".
Inductive json :=
| JNull
| JBool (b : bool)
| JNumber (n : number)
| JString (s : string)
| JArray (elems : list json)
| JObject (members : list (string * json)).

(** A [json.RawMessage] holds bytes: either the text of a JSON value, which
    stands for that value here, or bytes that are no JSON text at all. *)
Inductive RawMessage :=
| Raw (v : json)
| Malformed.

(** [json.Unmarshal(data, &x)] with [x] a [bool] holding [cur]: the value of
    [x] afterwards.  [null] leaves the target as it is. *)
Definition Unmarshal_bool (data : RawMessage) (cur : bool) : result bool :=
  match data with
  | Malformed => Err SyntaxError
  | Raw JNull => Ok cur
  | Raw (JBool x) => Ok x
  | Raw _ => Err UnmarshalTypeError
  end.

(** [json.Unmarshal(data, &x)] with [x] a [uint8]: the literal goes through
    [strconv.ParseUint] and must fit eight bits. *)
Definition Unmarshal_uint8 (data : RawMessage) (cur : byte) : result byte :=
  match data with
  | Malformed => Err SyntaxError
  | Raw JNull => Ok cur
  | Raw (JNumber (Integer z)) =>
      if (z <? 0)%Z then Err UnmarshalTypeError
      else match Byte.of_N (Z.to_N z) with
           | Some w => Ok w
           | None => Err UnmarshalTypeError
           end
  | Raw _ => Err UnmarshalTypeError
  end.

(** [base64.StdEncoding]: the value of a character of the alphabet. *)
Definition b64_value (c : ascii) : option N :=
  let n := N_of_ascii c in
  if ((65 <=? n) && (n <=? 90))%N then Some (n - 65)%N
  else if ((97 <=? n) && (n <=? 122))%N then Some (n - 71)%N
  else if ((48 <=? n) && (n <=? 57))%N then Some (n + 4)%N
  else if (n =? 43)%N then Some 62%N
  else if (n =? 47)%N then Some 63%N
  else None.

(** The [k]-th octet, counted from the most significant one, of the 24 bits
    four characters carry. *)
Definition b64_octet (v1 v2 v3 v4 : N) (k : N) : byte :=
  let bits := N.lor (N.lor (N.shiftl v1 18) (N.shiftl v2 12))
                    (N.lor (N.shiftl v3 6) v4) in
  default x00 (Byte.of_N (N.land (N.shiftr bits (16 - 8 * k)) 0xff)).

(** Quanta of four characters; the last one may end in one or two [=]. *)
Fixpoint b64_quanta (s : list ascii) : option (list byte) :=
  match s with
  | [] => Some []
  | [c1; c2; "="%char; "="%char] =>
      v1 ← b64_value c1; v2 ← b64_value c2;
      Some [b64_octet v1 v2 0 0 0]
  | [c1; c2; c3; "="%char] =>
      v1 ← b64_value c1; v2 ← b64_value c2; v3 ← b64_value c3;
      Some [b64_octet v1 v2 v3 0 0; b64_octet v1 v2 v3 0 1]
  | c1 :: c2 :: c3 :: c4 :: rest =>
      v1 ← b64_value c1; v2 ← b64_value c2;
      v3 ← b64_value c3; v4 ← b64_value c4;
      tl ← b64_quanta rest;
      Some (b64_octet v1 v2 v3 v4 0 :: b64_octet v1 v2 v3 v4 1
            :: b64_octet v1 v2 v3 v4 2 :: tl)
  | _ => None
  end.

(** [base64.StdEncoding.Decode]: carriage returns and line feeds are skipped
    wherever they stand. *)
Definition b64_decode (s : string) : option (list byte) :=
  b64_quanta
    (filter (fun c => c ≠ "013"%char ∧ c ≠ "010"%char) (list_ascii_of_string s)).

(** One element of a JSON array decoded into a fresh [uint8]. *)
Definition Unmarshal_elem (v : json) : result byte :=
  Unmarshal_uint8 (Raw v) x00.

(** [json.Unmarshal(data, &x)] with [x] a nil [[]byte], as the builder calls
    it: a string is base64, an array is decoded element by element, [null]
    gives the nil slice.  A nil slice and an empty one are both [[]]. *)
Definition Unmarshal_bytes (data : RawMessage) : result (list byte) :=
  match data with
  | Malformed => Err SyntaxError
  | Raw JNull => Ok []
  | Raw (JString s) =>
      match b64_decode s with
      | Some bs => Ok bs
      | None => Err CorruptInputError
      end
  | Raw (JArray elems) => mapM Unmarshal_elem elems
  | Raw _ => Err UnmarshalTypeError
  end.

(** [json.Unmarshal(data, &m)] with [m] a nil [map[string]json.RawMessage]:
    every member is kept as its raw text, a repeated name keeps the last
    member, [null] gives the nil map (which reads like the empty one). *)
Definition Unmarshal_map (data : RawMessage) : result (gmap string RawMessage) :=
  match data with
  | Malformed => Err SyntaxError
  | Raw JNull => Ok ∅
  | Raw (JObject members) =>
      Ok (foldl (fun m kv => <[kv.1 := Raw kv.2]> m) ∅ members)
  | Raw _ => Err UnmarshalTypeError
  end.

(** [json.Marshal] of a struct whose fields are all [bool]: the object with
    one member per field, named by the field's [json] tag, in declaration
    order. *)
Definition Marshal_struct (fields : list (string * bool)) : RawMessage :=
  Raw (JObject (prod_map id JBool <$> fields)).

(** The builders' idiom
    [if v, ok := b[key]; ok { if err := json.Unmarshal(v, &x); err != nil
    { return nil, err } }]
    for a [bool] target holding [cur]. *)
Definition bool_field (b : gmap string RawMessage) (key : string) (cur : bool)
  : result bool :=
  match b !! key with
  | Some v => Unmarshal_bool v cur
  | None => Ok cur
  end.

(** ** ISIS flags: [|F|B|V|L|S|P| | |] *)

Module isis.

Record adjISISFlags := {
  F : bool;
  B : bool;
  V : bool;
  L : bool;
  S : bool;
  P : bool
}.

Definition IsF (f : adjISISFlags) : bool := F f.
Definition IsB (f : adjISISFlags) : bool := B f.
Definition IsV (f : adjISISFlags) : bool := V f.
Definition IsL (f : adjISISFlags) : bool := L f.
Definition IsS (f : adjISISFlags) : bool := S f.
Definition IsP (f : adjISISFlags) : bool := P f.

Definition MarshalJSON (f : adjISISFlags) : RawMessage * option error :=
  (Marshal_struct
     [("f_flag", F f); ("b_flag", B f); ("v_flag", V f);
      ("l_flag", L f); ("s_flag", S f); ("p_flag", P f)],
   None).

End isis.

(** ** OSPFv2 flags: [|B|V|L|G|P| | | |] *)

Module ospfv2.

Record adjOSPFv2Flags := {
  B : bool;
  V : bool;
  L : bool;
  G : bool;
  P : bool
}.

Definition IsB (f : adjOSPFv2Flags) : bool := B f.
Definition IsV (f : adjOSPFv2Flags) : bool := V f.
Definition IsL (f : adjOSPFv2Flags) : bool := L f.
Definition IsG (f : adjOSPFv2Flags) : bool := G f.
Definition IsP (f : adjOSPFv2Flags) : bool := P f.

(** Field [G] carries the tag [json:"s_flag"]. *)
Definition MarshalJSON (f : adjOSPFv2Flags) : RawMessage * option error :=
  (Marshal_struct
     [("b_flag", B f); ("v_flag", V f); ("l_flag", L f);
      ("s_flag", G f); ("p_flag", P f)],
   None).

End ospfv2.

(** ** OSPFv3 flags: [|B|V|L|G|P| | | |] *)

Module ospfv3.

Record adjOSPFv3Flags := {
  B : bool;
  V : bool;
  L : bool;
  G : bool;
  P : bool
}.

Definition IsB (f : adjOSPFv3Flags) : bool := B f.
Definition IsV (f : adjOSPFv3Flags) : bool := V f.
Definition IsL (f : adjOSPFv3Flags) : bool := L f.
Definition IsG (f : adjOSPFv3Flags) : bool := G f.
Definition IsP (f : adjOSPFv3Flags) : bool := P f.

(** Field [G] carries the tag [json:"s_flag"]. *)
Definition MarshalJSON (f : adjOSPFv3Flags) : RawMessage * option error :=
  (Marshal_struct
     [("b_flag", B f); ("v_flag", V f); ("l_flag", L f);
      ("s_flag", G f); ("p_flag", P f)],
   None).

End ospfv3.

(** ** The interface [AdjacencySIDFlags] *)

(** A non-nil interface value is one of the three pointer types that
    implement [MarshalJSON]; the nil interface is [None] where the interface
    is a struct field. *)
Inductive AdjacencySIDFlags :=
| ISISFlags (f : isis.adjISISFlags)
| OSPFv2Flags (f : ospfv2.adjOSPFv2Flags)
| OSPFv3Flags (f : ospfv3.adjOSPFv3Flags).

Definition MarshalJSON (f : AdjacencySIDFlags) : RawMessage * option error :=
  match f with
  | ISISFlags f => isis.MarshalJSON f
  | OSPFv2Flags f => ospfv2.MarshalJSON f
  | OSPFv3Flags f => ospfv3.MarshalJSON f
  end.

(** [b&mask == mask] on a byte. *)
Definition bit_set (b : byte) (mask : N) : bool :=
  (N.land (Byte.to_N b) mask =? mask)%N.

Definition UnmarshalAdjacencySIDISISFlags (b : byte) : AdjacencySIDFlags :=
  ISISFlags {|
    isis.F := bit_set b 0x80;
    isis.B := bit_set b 0x40;
    isis.V := bit_set b 0x20;
    isis.L := bit_set b 0x10;
    isis.S := bit_set b 0x8;
    isis.P := bit_set b 0x4
  |}.

(** The function allocates an [adjISISFlags], as the ISIS one does. *)
Definition UnmarshalAdjacencySIDOSPFFlags (b : byte) : AdjacencySIDFlags :=
  ISISFlags {|
    isis.F := bit_set b 0x80;
    isis.B := bit_set b 0x40;
    isis.V := bit_set b 0x20;
    isis.L := bit_set b 0x10;
    isis.S := bit_set b 0x8;
    isis.P := bit_set b 0x4
  |}.

Definition UnmarshalAdjacencySIDOSPFv2Flags (b : byte) : AdjacencySIDFlags :=
  OSPFv2Flags {|
    ospfv2.B := bit_set b 0x80;
    ospfv2.V := bit_set b 0x40;
    ospfv2.L := bit_set b 0x20;
    ospfv2.G := bit_set b 0x10;
    ospfv2.P := bit_set b 0x8
  |}.

Definition UnmarshalAdjacencySIDOSPFv3Flags (b : byte) : AdjacencySIDFlags :=
  OSPFv3Flags {|
    ospfv3.B := bit_set b 0x80;
    ospfv3.V := bit_set b 0x40;
    ospfv3.L := bit_set b 0x20;
    ospfv3.G := bit_set b 0x10;
    ospfv3.P := bit_set b 0x8
  |}.

Definition buildAdjISISFlags (b : gmap string RawMessage)
  : option AdjacencySIDFlags * option error :=
  returned (
    vF ← bool_field b "f_flag" false;
    vB ← bool_field b "b_flag" false;
    vV ← bool_field b "v_flag" false;
    vL ← bool_field b "l_flag" false;
    vS ← bool_field b "s_flag" false;
    vP ← bool_field b "p_flag" false;
    mret (ISISFlags {| isis.F := vF; isis.B := vB; isis.V := vV;
                       isis.L := vL; isis.S := vS; isis.P := vP |})).

Definition buildAdjOSPFv2Flags (b : gmap string RawMessage)
  : option AdjacencySIDFlags * option error :=
  returned (
    vB ← bool_field b "b_flag" false;
    vV ← bool_field b "v_flag" false;
    vL ← bool_field b "l_flag" false;
    vG ← bool_field b "g_flag" false;
    vP ← bool_field b "p_flag" false;
    mret (OSPFv2Flags {| ospfv2.B := vB; ospfv2.V := vV; ospfv2.L := vL;
                         ospfv2.G := vG; ospfv2.P := vP |})).

Definition buildAdjOSPFv3Flags (b : gmap string RawMessage)
  : option AdjacencySIDFlags * option error :=
  returned (
    vB ← bool_field b "b_flag" false;
    vV ← bool_field b "v_flag" false;
    vL ← bool_field b "l_flag" false;
    vG ← bool_field b "g_flag" false;
    vP ← bool_field b "p_flag" false;
    mret (OSPFv3Flags {| ospfv3.B := vB; ospfv3.V := vV; ospfv3.L := vL;
                         ospfv3.G := vG; ospfv3.P := vP |})).

(** ** The Adjacency SID TLV *)

Record AdjacencySIDTLV := {
  Flags : option AdjacencySIDFlags;
  Weight : byte;
  SID : list byte
}.

(** [UnmarshalAdjacencySIDTLV], statement by statement; the trace line at its
    head has no effect on the result.  The returned pair is
    [(&asid, nil)]. *)
Definition UnmarshalAdjacencySIDTLV (protoID : ProtoID) (b : list byte)
  : outcome (option AdjacencySIDTLV * option error) :=
  let p := 0%Z in
  flags ← match protoID with
          | ISISL1 | ISISL2 =>
              x ← index b p; mret (Some (UnmarshalAdjacencySIDISISFlags x))
          | OSPFv2 | OSPFv3 =>
              x ← index b p; mret (Some (UnmarshalAdjacencySIDOSPFFlags x))
          | OtherProto _ => mret None
          end;
  let p := (p + 1)%Z in
  weight ← index b p;
  let p := (p + 1)%Z in
  let sl := (len b - 4)%Z in
  sid ← make (len b - 4);
  let p := (p + 2)%Z in
  src ← slice b p (p + sl);
  let sid := copy sid src in
  mret (Some {| Flags := flags; Weight := weight; SID := sid |}, None).

(** [f, err := build(fo); if err != nil { return nil, err }]: the value the
    caller goes on with. *)
Definition checked {A} (r : option A * option error) : result (option A) :=
  match r with
  | (_, Some e) => Err e
  | (v, None) => Ok v
  end.

(** The flags builder the [switch] of [BuildAdjacencySID] selects; no case
    matches another tag and the field keeps its nil value. *)
Definition buildFlags (protoID : ProtoID) (fo : gmap string RawMessage)
  : result (option AdjacencySIDFlags) :=
  match protoID with
  | ISISL1 | ISISL2 => checked (buildAdjISISFlags fo)
  | OSPFv2 => checked (buildAdjOSPFv2Flags fo)
  | OSPFv3 => checked (buildAdjOSPFv3Flags fo)
  | OtherProto _ => Ok None
  end.

Definition BuildAdjacencySID (protoID : ProtoID) (b : gmap string RawMessage)
  : option AdjacencySIDTLV * option error :=
  returned (
    flags ← match b !! "flags" with
            | Some v => fo ← Unmarshal_map v; buildFlags protoID fo
            | None => Ok None
            end;
    weight ← match b !! "weight" with
             | Some v => Unmarshal_uint8 v x00
             | None => Ok x00
             end;
    sid ← match b !! "sid" with
          | Some v => Unmarshal_bytes v
          | None => Ok []
          end;
    mret {| Flags := flags; Weight := weight; SID := sid |}).

(** ** Definitions the statements use *)

(** The flags field the [switch] of [UnmarshalAdjacencySIDTLV] leaves behind
    for a flags octet [o]. *)
Definition switchFlags (protoID : ProtoID) (o : byte) : option AdjacencySIDFlags :=
  match protoID with
  | ISISL1 | ISISL2 => Some (UnmarshalAdjacencySIDISISFlags o)
  | OSPFv2 | OSPFv3 => Some (UnmarshalAdjacencySIDOSPFFlags o)
  | OtherProto _ => None
  end.

(** The octet a flags value stands for, in the words of the specification:
    every named bit back at the position the layout of its variant gives it
    (ISIS [F B V L S P . .], OSPF [B V L G P . . .], most significant bit
    first), the reserved bits zero. *)
Definition place (x : bool) (mask : N) : N := if x then mask else 0%N.

Definition spec_flags_octet (f : AdjacencySIDFlags) : N :=
  match f with
  | ISISFlags f =>
      N.lor (place (isis.F f) 0x80) (N.lor (place (isis.B f) 0x40)
      (N.lor (place (isis.V f) 0x20) (N.lor (place (isis.L f) 0x10)
      (N.lor (place (isis.S f) 0x08) (place (isis.P f) 0x04)))))
  | OSPFv2Flags f =>
      N.lor (place (ospfv2.B f) 0x80) (N.lor (place (ospfv2.V f) 0x40)
      (N.lor (place (ospfv2.L f) 0x20) (N.lor (place (ospfv2.G f) 0x10)
      (place (ospfv2.P f) 0x08))))
  | OSPFv3Flags f =>
      N.lor (place (ospfv3.B f) 0x80) (N.lor (place (ospfv3.V f) 0x40)
      (N.lor (place (ospfv3.L f) 0x20) (N.lor (place (ospfv3.G f) 0x10)
      (place (ospfv3.P f) 0x08))))
  end.

(** The bits of the octet that are not reserved: by the variant of a flags
    value, and by the layout the specification gives a protocol. *)
Definition spec_named_bits (f : AdjacencySIDFlags) : N :=
  match f with
  | ISISFlags _ => 0xfc%N
  | OSPFv2Flags _ | OSPFv3Flags _ => 0xf8%N
  end.

Definition spec_proto_bits (protoID : ProtoID) : N :=
  match protoID with
  | ISISL1 | ISISL2 => 0xfc%N
  | OSPFv2 | OSPFv3 => 0xf8%N
  | OtherProto _ => 0%N
  end.

(** The TLV value of the specification's binary scenario. *)
Definition scenario_tlv : list byte := [xb4; x0a; x00; x00; x01; x02; x03].

(** The member names of a marshalled object, in order. *)
Definition object_keys (data : RawMessage) : list string :=
  match data with
  | Raw (JObject members) => members.*1
  | _ => []
  end.

(** A flags value marshalled and built again under [protoID], the way
    [BuildAdjacencySID] treats the value of its [flags] key. *)
Definition rebuilt (protoID : ProtoID) (f : AdjacencySIDFlags)
  : result (option AdjacencySIDFlags) :=
  fo ← Unmarshal_map (MarshalJSON f).1; buildFlags protoID fo.

(** The named bits of a flags value under the keys the specification gives
    its variant: [f_flag] to [p_flag] for ISIS, and for OSPF the same with
    [g_flag] in place of [s_flag] and without [f_flag]. *)
Definition spec_named_flags (f : AdjacencySIDFlags) : list (string * bool) :=
  match f with
  | ISISFlags f =>
      [("f_flag", isis.F f); ("b_flag", isis.B f); ("v_flag", isis.V f);
       ("l_flag", isis.L f); ("s_flag", isis.S f); ("p_flag", isis.P f)]
  | OSPFv2Flags f =>
      [("b_flag", ospfv2.B f); ("v_flag", ospfv2.V f); ("l_flag", ospfv2.L f);
       ("g_flag", ospfv2.G f); ("p_flag", ospfv2.P f)]
  | OSPFv3Flags f =>
      [("b_flag", ospfv3.B f); ("v_flag", ospfv3.V f); ("l_flag", ospfv3.L f);
       ("g_flag", ospfv3.G f); ("p_flag", ospfv3.P f)]
  end.

(** The flag keys of the variant a protocol tag selects. *)
Definition spec_flag_keys (protoID : ProtoID) : list string :=
  match protoID with
  | ISISL1 | ISISL2 =>
      ["f_flag"; "b_flag"; "v_flag"; "l_flag"; "s_flag"; "p_flag"]
  | OSPFv2 | OSPFv3 => ["b_flag"; "v_flag"; "l_flag"; "g_flag"; "p_flag"]
  | OtherProto _ => []
  end.









(** The field map of the specification's JSON scenario. *)
Definition scenario_fields : gmap string RawMessage :=
  <["flags" := Raw (JObject [("b_flag", JBool true); ("p_flag", JBool true)])]>
  (<["weight" := Raw (JNumber (Integer 5))]>
  (<["sid" := Raw (JArray [JNumber (Integer 9); JNumber (Integer 9);
                            JNumber (Integer 9); JNumber (Integer 9)])]> ∅)).

(** A field map whose weight is a string. *)
Definition bad_weight_fields : gmap string RawMessage :=
  {["weight" := Raw (JString "not-a-number")]}.

(** An OSPF flags object with only [g_flag] set, and the flags built from
    it. *)
Definition g_fields : gmap string RawMessage := {["g_flag" := Raw (JBool true)]}.

Definition g_only : ospfv2.adjOSPFv2Flags :=
  {| ospfv2.B := false; ospfv2.V := false; ospfv2.L := false;
     ospfv2.G := true; ospfv2.P := false |}.

(** The bit of an octet at position [i], the least significant one being
    bit 0. *)
Definition bit (o : byte) (i : N) : bool := N.testbit (Byte.to_N o) i.

(** A TLV value cut after its weight, and a complete one with OSPF-looking
    flags. *)
Definition cut_tlv : list byte := [xb4; x0a].

Definition ospf_tlv : list byte := [xa8; x01; xff; xff; x00; x5d; xc1].

(** ** Proof steps shared below *)


(** ** The decoder on inputs of four bytes and more *)

Lemma len_cons {A} (x : A) (s : list A) : len (x :: s) = (len s + 1)%Z.
Proof. unfold len. cbn [length]. lia. Qed.

Lemma len_nonneg {A} (s : list A) : (0 <= len s)%Z.
Proof. unfold len. lia. Qed.

Lemma make_len {A} (s : list A) :
  make (len s) = Returns (replicate (length s) x00).
Proof.
  unfold make. pose proof (len_nonneg s) as Hs.
  destruct (Z.ltb_spec (len s) 0) as [Hlt | _]; [lia |].
  unfold len. now rewrite Nat2Z.id.
Qed.

Lemma slice_tail {A} (x0 x1 x2 x3 : A) (s : list A) :
  slice (x0 :: x1 :: x2 :: x3 :: s) 4 (4 + len s) = Returns s.
Proof.
  unfold slice. rewrite !len_cons. pose proof (len_nonneg s) as Hs.
  replace ((0 <=? 4)%Z && (4 <=? 4 + len s)%Z
           && (4 + len s <=? len s + 1 + 1 + 1 + 1)%Z)%bool with true.
  - replace (4 + len s - 4)%Z with (len s) by lia.
    unfold len. rewrite Nat2Z.id. change (Z.to_nat 4) with 4%nat.
    cbn [drop]. now rewrite firstn_all.
  - symmetry. rewrite !andb_true_iff, !Z.leb_le. lia.
Qed.

Lemma copy_fresh {A} (x : A) (src : list A) :
  copy (replicate (length src) x) src = src.
Proof.
  unfold copy. rewrite length_replicate, Nat.min_id.
  rewrite firstn_all, drop_ge by (rewrite length_replicate; lia).
  apply app_nil_r.
Qed.

Lemma Unmarshal_header (protoID : ProtoID) (o w r1 r2 : byte) (rest : list byte) :
  UnmarshalAdjacencySIDTLV protoID (o :: w :: r1 :: r2 :: rest)
  = Returns (Some {| Flags := switchFlags protoID o; Weight := w; SID := rest |},
             None).
Proof.
  unfold UnmarshalAdjacencySIDTLV. cbv zeta.
  replace (len (o :: w :: r1 :: r2 :: rest) - 4)%Z with (len rest)
    by (rewrite !len_cons; lia).
  change (0 + 1 + 1 + 2)%Z with 4%Z.
  rewrite make_len, slice_tail.
  destruct protoID; cbn; now rewrite copy_fresh.
Qed.

(** A slice of length at least four is its four header bytes and a rest. *)
Lemma four_bytes {A} (b : list A) :
  (4 <= len b)%Z ->
  exists x0 x1 x2 x3 rest, b = x0 :: x1 :: x2 :: x3 :: rest.
Proof.
  unfold len. intros Hb.
  destruct b as [| x0 [| x1 [| x2 [| x3 rest]]]]; cbn [length] in Hb; try lia.
  now exists x0, x1, x2, x3, rest.
Qed.

Lemma Unmarshal_short (protoID : ProtoID) (b : list byte) :
  (len b < 4)%Z -> exists p, UnmarshalAdjacencySIDTLV protoID b = Panics p.
Proof.
  unfold len. intros Hb.
  destruct b as [| x0 [| x1 [| x2 [| x3 rest]]]]; cbn [length] in Hb; try lia;
    destruct protoID; cbn; eauto.
Qed.

(** ** Binary decoding *)

(** C1, at the octet 0x80 under the OSPFv2 tag: the decoder returns an
    ISIS-shaped flags value with F set and B clear, where the OSPF layout
    reads bit 7 as B; [UnmarshalAdjacencySIDOSPFv2Flags], which follows that
    layout, gives another value and is not the function the decoder calls. *)
Theorem C1_ospf_tag_decodes_isis_layout :
  UnmarshalAdjacencySIDTLV OSPFv2 [x80; x00; x00; x00]
  = Returns
      (Some {| Flags := Some (ISISFlags {| isis.F := true; isis.B := false;
                                           isis.V := false; isis.L := false;
                                           isis.S := false; isis.P := false |});
               Weight := x00; SID := [] |},
       None)
  /\ UnmarshalAdjacencySIDOSPFv2Flags x80
     = OSPFv2Flags {| ospfv2.B := true; ospfv2.V := false; ospfv2.L := false;
                      ospfv2.G := false; ospfv2.P := false |}.
Proof. split; reflexivity. Qed.

(** C2, at the three bytes B4 0A 00: under each of the four recognized tags
    the decoder reads the flags and the weight and then panics in
    [make([]byte, len(b)-4)], whose length is -1; no error value is
    returned. *)
Theorem C2_three_bytes_panic :
  Forall
    (fun protoID =>
       UnmarshalAdjacencySIDTLV protoID [xb4; x0a; x00]
       = Panics MakeSliceLenOutOfRange)
    [ISISL1; ISISL2; OSPFv2; OSPFv3].
Proof. repeat constructor. Qed.

(** C3: under a recognized tag and on at least four bytes the decoder
    returns an object whose SID is the input from offset 4 on, of length
    [len(b) - 4] (empty when [len(b) = 4]), and whose weight is the byte at
    offset 1. *)
Theorem C3_sid_and_weight (protoID : ProtoID) (b : list byte) :
  recognized protoID = true ->
  (4 <= len b)%Z ->
  exists asid,
    UnmarshalAdjacencySIDTLV protoID b = Returns (Some asid, None)
    /\ len (SID asid) = (len b - 4)%Z
    /\ SID asid = drop 4 b
    /\ (len b = 4%Z -> SID asid = [])
    /\ b !! 1%nat = Some (Weight asid).
Proof.
  intros _ Hb. destruct (four_bytes b Hb) as (o & w & r1 & r2 & rest & ->).
  eexists. split; [apply Unmarshal_header |]. cbn [SID Weight drop].
  rewrite !len_cons. split; [lia |]. split; [reflexivity |].
  split; [| reflexivity].
  unfold len. destruct rest; [reflexivity | cbn [length]; lia].
Qed.

Lemma C3_sid_and_weight_witness :
  recognized OSPFv3 = true
  /\ (4 <= len scenario_tlv)%Z
  /\ exists asid,
       UnmarshalAdjacencySIDTLV OSPFv3 scenario_tlv = Returns (Some asid, None)
       /\ len (SID asid) = (len scenario_tlv - 4)%Z
       /\ SID asid = drop 4 scenario_tlv
       /\ (len scenario_tlv = 4%Z -> SID asid = [])
       /\ scenario_tlv !! 1%nat = Some (Weight asid).
Proof.
  assert (Htag : recognized OSPFv3 = true) by reflexivity.
  assert (Hlen : (4 <= len scenario_tlv)%Z) by (vm_compute; discriminate).
  split; [exact Htag |]. split; [exact Hlen |].
  exact (C3_sid_and_weight OSPFv3 scenario_tlv Htag Hlen).
Defined.

(** C6, as the specification words it: the flags it lists for the octet
    0xB4 are not the ones the decoder returns. *)
Lemma C6_stated_flags_differ :
  UnmarshalAdjacencySIDTLV ISISL2 scenario_tlv
  <> Returns
       (Some {| Flags := Some (ISISFlags {| isis.F := true; isis.B := false;
                                            isis.V := false; isis.L := true;
                                            isis.S := true; isis.P := false |});
                Weight := x0a; SID := [x01; x02; x03] |},
        None).
Proof. vm_compute. discriminate. Qed.

(** C6, amended: 0xB4 is 1011 0100, so under ISIS-L2 the decoder yields
    F, V, L and P set and B and S clear, with weight 10 and SID 01 02 03. *)
Theorem C6_scenario_decodes :
  UnmarshalAdjacencySIDTLV ISISL2 scenario_tlv
  = Returns
      (Some {| Flags := Some (ISISFlags {| isis.F := true; isis.B := false;
                                           isis.V := true; isis.L := true;
                                           isis.S := false; isis.P := true |});
               Weight := x0a; SID := [x01; x02; x03] |},
       None).
Proof. reflexivity. Qed.

(** ** The flags octet back from the flags *)

Lemma ISISFlags_octet (o : byte) :
  spec_flags_octet (UnmarshalAdjacencySIDISISFlags o) = N.land (Byte.to_N o) 0xfc.
Proof. destruct o; reflexivity. Qed.

Lemma OSPFFlags_octet (o : byte) :
  spec_flags_octet (UnmarshalAdjacencySIDOSPFFlags o) = N.land (Byte.to_N o) 0xfc.
Proof. destruct o; reflexivity. Qed.

(** The two decoders the TLV decoder never calls follow the OSPF layout. *)
Lemma OSPFv2Flags_octet (o : byte) :
  spec_flags_octet (UnmarshalAdjacencySIDOSPFv2Flags o) = N.land (Byte.to_N o) 0xf8.
Proof. destruct o; reflexivity. Qed.

Lemma OSPFv3Flags_octet (o : byte) :
  spec_flags_octet (UnmarshalAdjacencySIDOSPFv3Flags o) = N.land (Byte.to_N o) 0xf8.
Proof. destruct o; reflexivity. Qed.

Lemma switchFlags_octet (protoID : ProtoID) (o : byte) :
  recognized protoID = true ->
  exists f,
    switchFlags protoID o = Some f
    /\ spec_named_bits f = 0xfc%N
    /\ spec_flags_octet f = N.land (Byte.to_N o) 0xfc.
Proof.
  intros Htag.
  destruct protoID; try discriminate Htag; cbn [switchFlags]; eexists;
    (split; [reflexivity |]); (split; [reflexivity |]);
    first [apply ISISFlags_octet | apply OSPFFlags_octet].
Qed.

(** C9: under a recognized tag and on at least four bytes, the octet
    re-derived from the decoded flags agrees with the flags octet of the
    input on every bit that is not reserved, whether the reserved bits are
    those of the variant returned or those of the protocol's layout. *)
Theorem C9_flags_octet_roundtrip (protoID : ProtoID) (b : list byte) :
  recognized protoID = true ->
  (4 <= len b)%Z ->
  exists asid f o,
    UnmarshalAdjacencySIDTLV protoID b = Returns (Some asid, None)
    /\ Flags asid = Some f
    /\ b !! 0%nat = Some o
    /\ N.land (spec_flags_octet f) (spec_named_bits f)
       = N.land (Byte.to_N o) (spec_named_bits f)
    /\ N.land (spec_flags_octet f) (spec_proto_bits protoID)
       = N.land (Byte.to_N o) (spec_proto_bits protoID).
Proof.
  intros Htag Hb. destruct (four_bytes b Hb) as (o & w & r1 & r2 & rest & ->).
  destruct (switchFlags_octet protoID o Htag) as (f & Hf & Hbits & Hoct).
  eexists _, f, o. split; [apply Unmarshal_header |]. cbn [Flags].
  split; [exact Hf |]. split; [reflexivity |].
  rewrite Hbits, Hoct, <- !N.land_assoc. split; [reflexivity |].
  destruct protoID; try discriminate Htag; reflexivity.
Qed.

Lemma C9_flags_octet_roundtrip_witness :
  recognized OSPFv2 = true
  /\ (4 <= len scenario_tlv)%Z
  /\ exists asid f o,
       UnmarshalAdjacencySIDTLV OSPFv2 scenario_tlv = Returns (Some asid, None)
       /\ Flags asid = Some f
       /\ scenario_tlv !! 0%nat = Some o
       /\ N.land (spec_flags_octet f) (spec_named_bits f)
          = N.land (Byte.to_N o) (spec_named_bits f)
       /\ N.land (spec_flags_octet f) (spec_proto_bits OSPFv2)
          = N.land (Byte.to_N o) (spec_proto_bits OSPFv2).
Proof.
  assert (Htag : recognized OSPFv2 = true) by reflexivity.
  assert (Hlen : (4 <= len scenario_tlv)%Z) by (vm_compute; discriminate).
  split; [exact Htag |]. split; [exact Hlen |].
  exact (C9_flags_octet_roundtrip OSPFv2 scenario_tlv Htag Hlen).
Defined.

(** C10: on at least four bytes the decoder returns an object and a nil
    error whatever the tag; under a tag outside the four recognized ones
    the flags are nil, and the weight and the SID are still the byte at
    offset 1 and the bytes from offset 4 on. *)
Theorem C10_unrecognized_tag_is_silent (protoID : ProtoID) (b : list byte) :
  (4 <= len b)%Z ->
  exists asid,
    UnmarshalAdjacencySIDTLV protoID b = Returns (Some asid, None)
    /\ (recognized protoID = false ->
        Flags asid = None
        /\ b !! 1%nat = Some (Weight asid)
        /\ SID asid = drop 4 b).
Proof.
  intros Hb. destruct (four_bytes b Hb) as (o & w & r1 & r2 & rest & ->).
  eexists. split; [apply Unmarshal_header |]. cbn [Flags Weight SID].
  intros Htag. destruct protoID; try discriminate Htag. now cbn.
Qed.

Lemma C10_unrecognized_tag_is_silent_witness :
  (4 <= len scenario_tlv)%Z
  /\ exists asid,
       UnmarshalAdjacencySIDTLV (OtherProto 7) scenario_tlv
       = Returns (Some asid, None)
       /\ (recognized (OtherProto 7) = false ->
           Flags asid = None
           /\ scenario_tlv !! 1%nat = Some (Weight asid)
           /\ SID asid = drop 4 scenario_tlv).
Proof.
  assert (Hlen : (4 <= len scenario_tlv)%Z) by (vm_compute; discriminate).
  split; [exact Hlen |].
  exact (C10_unrecognized_tag_is_silent (OtherProto 7) scenario_tlv Hlen).
Defined.

(** ** The JSON form of the flags *)

(** C5, on the code: whatever the value, an OSPFv2 or OSPFv3 flags object is
    written with the member [s_flag] where the specification has [g_flag];
    no member is named [g_flag]. *)
Theorem C5_ospf_marshal_keys
  (f2 : ospfv2.adjOSPFv2Flags) (f3 : ospfv3.adjOSPFv3Flags) :
  object_keys (MarshalJSON (OSPFv2Flags f2)).1
  = ["b_flag"; "v_flag"; "l_flag"; "s_flag"; "p_flag"]
  /\ object_keys (MarshalJSON (OSPFv3Flags f3)).1
     = ["b_flag"; "v_flag"; "l_flag"; "s_flag"; "p_flag"]
  /\ (MarshalJSON (OSPFv2Flags f2)).2 = None
  /\ (MarshalJSON (OSPFv3Flags f3)).2 = None.
Proof. repeat split. Qed.

(** What building again makes of a marshalled value. *)
Lemma rebuilt_isis (f : isis.adjISISFlags) :
  rebuilt ISISL1 (ISISFlags f) = Ok (Some (ISISFlags f))
  /\ rebuilt ISISL2 (ISISFlags f) = Ok (Some (ISISFlags f)).
Proof. destruct f as [[] [] [] [] [] []]; split; vm_compute; reflexivity. Qed.

Lemma rebuilt_ospfv2 (f : ospfv2.adjOSPFv2Flags) :
  rebuilt OSPFv2 (OSPFv2Flags f)
  = Ok (Some (OSPFv2Flags {| ospfv2.B := ospfv2.B f; ospfv2.V := ospfv2.V f;
                             ospfv2.L := ospfv2.L f; ospfv2.G := false;
                             ospfv2.P := ospfv2.P f |})).
Proof. destruct f as [[] [] [] [] []]; vm_compute; reflexivity. Qed.

Lemma rebuilt_ospfv3 (f : ospfv3.adjOSPFv3Flags) :
  rebuilt OSPFv3 (OSPFv3Flags f)
  = Ok (Some (OSPFv3Flags {| ospfv3.B := ospfv3.B f; ospfv3.V := ospfv3.V f;
                             ospfv3.L := ospfv3.L f; ospfv3.G := false;
                             ospfv3.P := ospfv3.P f |})).
Proof. destruct f as [[] [] [] [] []]; vm_compute; reflexivity. Qed.

(** C4, at the OSPFv2 flags object with only [g_flag] true: the builder sets
    G, the value is marshalled with G under [s_flag], and building again
    finds no [g_flag] and leaves G false. *)
Theorem C4_g_flag_lost_on_rebuild :
  buildAdjOSPFv2Flags g_fields = (Some (OSPFv2Flags g_only), None)
  /\ rebuilt OSPFv2 (OSPFv2Flags g_only)
     = Ok (Some (OSPFv2Flags {| ospfv2.B := false; ospfv2.V := false;
                                ospfv2.L := false; ospfv2.G := false;
                                ospfv2.P := false |})).
Proof. split; vm_compute; reflexivity. Qed.

(** ** The builders, key by key *)

Lemma bool_field_absent (b : gmap string RawMessage) (key : string) (cur : bool) :
  b !! key = None -> bool_field b key cur = Ok cur.
Proof. unfold bool_field. now intros ->. Qed.

Lemma bool_field_Err (b : gmap string RawMessage) (key : string) (cur : bool) (e : error) :
  bool_field b key cur = Err e <->
  exists v, b !! key = Some v /\ Unmarshal_bool v cur = Err e.
Proof.
  unfold bool_field. destruct (b !! key) as [v |].
  - split; [intros H; now exists v | now intros (v' & [= <-] & H)].
  - split; [discriminate | now intros (v' & [=] & _)].
Qed.

(** What the selected builder returns: on success every named bit is the
    value its key was read to, and an error is the error of one key. *)
Lemma buildFlags_spec (protoID : ProtoID) (fo : gmap string RawMessage) :
  recognized protoID = true ->
  match buildFlags protoID fo with
  | Ok (Some f) =>
      (spec_named_flags f).*1 = spec_flag_keys protoID
      /\ Forall (fun kx => bool_field fo kx.1 false = Ok kx.2) (spec_named_flags f)
  | Ok None => False
  | Err e => exists key, key ∈ spec_flag_keys protoID /\ bool_field fo key false = Err e
  end.
Proof.
  intros Htag.
  destruct protoID; try discriminate Htag;
    unfold buildFlags, buildAdjISISFlags, buildAdjOSPFv2Flags, buildAdjOSPFv3Flags;
    cbn [spec_flag_keys];
    repeat match goal with
      | |- context [bool_field fo ?k false] =>
          let E := fresh "E" in
          destruct (bool_field fo k false) eqn:E; cbn
      end;
    first
      [ split; [reflexivity | repeat constructor; assumption]
      | eexists; split; [| eassumption]; set_solver ].
Qed.

(** C7: the OSPFv2 scenario builds B and P set and the other bits clear,
    weight 5 and SID 9 9 9 9; and under every recognized tag a flag key of
    the variant that is absent from the flags object leaves its bit false,
    an error being that of some other key, which is present. *)
Theorem C7_scenario_and_absent_keys
  (protoID : ProtoID) (fo : gmap string RawMessage) (key : string) :
  recognized protoID = true ->
  key ∈ spec_flag_keys protoID ->
  fo !! key = None ->
  BuildAdjacencySID OSPFv2 scenario_fields
  = (Some {| Flags := Some (OSPFv2Flags {| ospfv2.B := true; ospfv2.V := false;
                                           ospfv2.L := false; ospfv2.G := false;
                                           ospfv2.P := true |});
             Weight := x05; SID := [x09; x09; x09; x09] |},
     None)
  /\ match buildFlags protoID fo with
     | Ok (Some f) => (key, false) ∈ spec_named_flags f
     | Ok None => False
     | Err e =>
         exists key' v,
           key' <> key /\ key' ∈ spec_flag_keys protoID
           /\ fo !! key' = Some v /\ Unmarshal_bool v false = Err e
     end.
Proof.
  intros Htag Hkey Habsent. split; [vm_compute; reflexivity |].
  pose proof (buildFlags_spec protoID fo Htag) as Hspec.
  destruct (buildFlags protoID fo) as [[f |] | e]; [| exact Hspec |].
  - destruct Hspec as [Hkeys Hall]. rewrite <- Hkeys in Hkey.
    apply list_elem_of_fmap in Hkey as ([k x] & -> & Hin).
    rewrite Forall_forall in Hall. specialize (Hall _ Hin). cbn in *.
    rewrite (bool_field_absent _ _ _ Habsent) in Hall.
    now injection Hall as <-.
  - destruct Hspec as (key' & Hin & Herr).
    apply bool_field_Err in Herr as (v & Hv & Hu).
    exists key', v. repeat split; try assumption. congruence.
Qed.

Lemma C7_scenario_and_absent_keys_witness :
  recognized OSPFv2 = true
  /\ "g_flag" ∈ spec_flag_keys OSPFv2
  /\ ({["b_flag" := Raw (JBool true)]} : gmap string RawMessage) !! "g_flag" = None
  /\ BuildAdjacencySID OSPFv2 scenario_fields
     = (Some {| Flags := Some (OSPFv2Flags {| ospfv2.B := true; ospfv2.V := false;
                                              ospfv2.L := false; ospfv2.G := false;
                                              ospfv2.P := true |});
                Weight := x05; SID := [x09; x09; x09; x09] |},
        None)
  /\ match buildFlags OSPFv2 {["b_flag" := Raw (JBool true)]} with
     | Ok (Some f) => ("g_flag", false) ∈ spec_named_flags f
     | Ok None => False
     | Err e =>
         exists key' v,
           key' <> "g_flag" /\ key' ∈ spec_flag_keys OSPFv2
           /\ ({["b_flag" := Raw (JBool true)]} : gmap string RawMessage) !! key'
              = Some v
           /\ Unmarshal_bool v false = Err e
     end.
Proof.
  assert (Htag : recognized OSPFv2 = true) by reflexivity.
  assert (Hkey : "g_flag" ∈ spec_flag_keys OSPFv2) by (cbn; set_solver).
  assert (Habsent : ({["b_flag" := Raw (JBool true)]} : gmap string RawMessage)
                      !! "g_flag" = None) by (vm_compute; reflexivity).
  split; [exact Htag |]. split; [exact Hkey |]. split; [exact Habsent |].
  exact (C7_scenario_and_absent_keys OSPFv2 _ "g_flag" Htag Hkey Habsent).
Defined.

(** ** Shapes and the errors of [json.Unmarshal] *)







(** ** The builder of the TLV *)







(** ** The builder at work *)

(** A weight that is a JSON string is refused, and nothing is returned with
    the error. *)
Example build_bad_weight :
  BuildAdjacencySID OSPFv2 bad_weight_fields = (None, Some UnmarshalTypeError).
Proof. vm_compute. reflexivity. Qed.

(** [null] under a flag key is read as an absent value. *)
Example build_null_flag :
  buildAdjISISFlags {["f_flag" := Raw JNull]}
  = (Some (ISISFlags {| isis.F := false; isis.B := false; isis.V := false;
                        isis.L := false; isis.S := false; isis.P := false |}),
     None).
Proof. vm_compute. reflexivity. Qed.

(** A flag key of another variant is ignored, whatever it holds. *)
Example build_foreign_key :
  buildAdjISISFlags {["g_flag" := Raw (JNumber (Integer 1))]}
  = (Some (ISISFlags {| isis.F := false; isis.B := false; isis.V := false;
                        isis.L := false; isis.S := false; isis.P := false |}),
     None).
Proof. vm_compute. reflexivity. Qed.

(** The SID in the form [encoding/json] writes a [[]byte], and a weight out
    of range. *)
Example build_base64_sid :
  BuildAdjacencySID ISISL1 {["sid" := Raw (JString "CQkJCQ==")]}
  = (Some {| Flags := None; Weight := x00; SID := [x09; x09; x09; x09] |}, None).
Proof. vm_compute. reflexivity. Qed.

Example build_weight_256 :
  BuildAdjacencySID ISISL1 {["weight" := Raw (JNumber (Integer 256))]}
  = (None, Some UnmarshalTypeError).
Proof. vm_compute. reflexivity. Qed.

(** ** Further properties of the binary decoder *)

(** Whatever the decoder returns comes from four header bytes and a rest. *)
Lemma Unmarshal_returns (protoID : ProtoID) (b : list byte)
    (r : option AdjacencySIDTLV * option error) :
  UnmarshalAdjacencySIDTLV protoID b = Returns r ->
  exists o w r1 r2 rest,
    b = o :: w :: r1 :: r2 :: rest
    /\ r = (Some {| Flags := switchFlags protoID o; Weight := w; SID := rest |},
            None).
Proof.
  intros Hr. destruct (Z.lt_ge_cases (len b) 4) as [Hlt | Hge].
  - destruct (Unmarshal_short protoID b Hlt) as [p Hp]. congruence.
  - destruct (four_bytes b Hge) as (o & w & r1 & r2 & rest & ->).
    rewrite Unmarshal_header in Hr. injection Hr as <-.
    now exists o, w, r1, r2, rest.
Qed.

(** X1: the decoder returns exactly on inputs of four bytes and more, and
    then with an object and a nil error; on every shorter input it panics. *)
Theorem X1_decoder_returns_iff_four_bytes (protoID : ProtoID) (b : list byte) :
  match UnmarshalAdjacencySIDTLV protoID b with
  | Returns r => (4 <= len b)%Z /\ exists asid, r = (Some asid, None)
  | Panics _ => (len b < 4)%Z
  end.
Proof.
  destruct (UnmarshalAdjacencySIDTLV protoID b) as [r | p] eqn:Hr.
  - apply Unmarshal_returns in Hr as (o & w & r1 & r2 & rest & -> & ->).
    split; [| eauto]. rewrite !len_cons. pose proof (len_nonneg rest). lia.
  - destruct (Z.lt_ge_cases (len b) 4) as [Hlt | Hge]; [exact Hlt |].
    destruct (four_bytes b Hge) as (o & w & r1 & r2 & rest & ->).
    rewrite Unmarshal_header in Hr. discriminate Hr.
Qed.

(** X2: on fewer than two bytes the panic is the index out of range of a
    header read, on two or three bytes it is the negative length handed to
    [make]; the slice expression that follows is never what fails. *)
Theorem X2_short_input_panic_kind (protoID : ProtoID) (b : list byte) :
  (len b < 4)%Z ->
  UnmarshalAdjacencySIDTLV protoID b
  = Panics (if (len b <? 2)%Z then IndexOutOfRange else MakeSliceLenOutOfRange).
Proof.
  unfold len. intros Hb.
  destruct b as [| x0 [| x1 [| x2 [| x3 rest]]]]; cbn [length] in Hb; try lia;
    destruct protoID; reflexivity.
Qed.

Lemma X2_short_input_panic_kind_witness :
  (len cut_tlv < 4)%Z
  /\ UnmarshalAdjacencySIDTLV OSPFv3 cut_tlv
     = Panics (if (len cut_tlv <? 2)%Z then IndexOutOfRange
               else MakeSliceLenOutOfRange).
Proof.
  assert (Hlen : (len cut_tlv < 4)%Z) by (vm_compute; reflexivity).
  split; [exact Hlen |].
  exact (X2_short_input_panic_kind OSPFv3 cut_tlv Hlen).
Defined.

(** X3: the four recognized tags are not told apart: on the same bytes the
    decoder gives the same outcome, the same panic included, under any two of
    them. *)
Theorem X3_recognized_tags_decode_alike (p q : ProtoID) (b : list byte) :
  recognized p = true ->
  recognized q = true ->
  UnmarshalAdjacencySIDTLV p b = UnmarshalAdjacencySIDTLV q b.
Proof.
  intros Hp Hq.
  destruct p; try discriminate Hp; destruct q; try discriminate Hq; reflexivity.
Qed.

Lemma X3_recognized_tags_decode_alike_witness :
  recognized ISISL1 = true
  /\ recognized OSPFv3 = true
  /\ UnmarshalAdjacencySIDTLV ISISL1 ospf_tlv = UnmarshalAdjacencySIDTLV OSPFv3 ospf_tlv.
Proof.
  assert (Hp : recognized ISISL1 = true) by reflexivity.
  assert (Hq : recognized OSPFv3 = true) by reflexivity.
  split; [exact Hp |]. split; [exact Hq |].
  exact (X3_recognized_tags_decode_alike ISISL1 OSPFv3 ospf_tlv Hp Hq).
Defined.

(** X4: the two reserved bytes at offsets 2 and 3 are neither read nor
    checked: changing them changes nothing in the outcome. *)
Theorem X4_reserved_bytes_ignored
  (protoID : ProtoID) (o w r1 r2 r1' r2' : byte) (rest : list byte) :
  UnmarshalAdjacencySIDTLV protoID (o :: w :: r1 :: r2 :: rest)
  = UnmarshalAdjacencySIDTLV protoID (o :: w :: r1' :: r2' :: rest).
Proof. now rewrite !Unmarshal_header. Qed.

(** X5: whatever the decoder returns, its flags are nil or ISIS-shaped, never
    one of the two OSPF types; they are nil exactly under a tag that is not
    recognized. *)
Theorem X5_decoded_flags_never_ospf_typed
  (protoID : ProtoID) (b : list byte) :
  match UnmarshalAdjacencySIDTLV protoID b with
  | Returns (Some asid, _) =>
      match Flags asid with
      | None => recognized protoID = false
      | Some (ISISFlags _) => recognized protoID = true
      | Some (OSPFv2Flags _) | Some (OSPFv3Flags _) => False
      end
  | Returns (None, _) => False
  | Panics _ => True
  end.
Proof.
  destruct (UnmarshalAdjacencySIDTLV protoID b) as [r | p] eqn:Hr; [| exact I].
  apply Unmarshal_returns in Hr as (o & w & r1 & r2 & rest & -> & ->).
  cbn [Flags]. destruct protoID; reflexivity.
Qed.

(** ** The flag decoders, bit by bit *)

(** X6: the ISIS decoder, and with it the identical decoder the OSPF branch
    calls, answers [IsF] to [IsP] with bits 7 down to 2 of the octet. *)
Theorem X6_isis_accessors_read_bits_7_to_2 (o : byte) :
  exists f,
    UnmarshalAdjacencySIDISISFlags o = ISISFlags f
    /\ UnmarshalAdjacencySIDOSPFFlags o = ISISFlags f
    /\ isis.IsF f = bit o 7 /\ isis.IsB f = bit o 6 /\ isis.IsV f = bit o 5
    /\ isis.IsL f = bit o 4 /\ isis.IsS f = bit o 3 /\ isis.IsP f = bit o 2.
Proof.
  eexists. split; [reflexivity |]. split; [reflexivity |].
  destruct o; vm_compute; repeat split.
Qed.

(** X7: the two decoders written for OSPFv2 and OSPFv3 answer [IsB] to
    [IsP] with bits 7 down to 3 of the octet, alike for both versions. *)
Theorem X7_ospf_accessors_read_bits_7_to_3 (o : byte) :
  exists f2 f3,
    UnmarshalAdjacencySIDOSPFv2Flags o = OSPFv2Flags f2
    /\ UnmarshalAdjacencySIDOSPFv3Flags o = OSPFv3Flags f3
    /\ ospfv2.IsB f2 = bit o 7 /\ ospfv3.IsB f3 = bit o 7
    /\ ospfv2.IsV f2 = bit o 6 /\ ospfv3.IsV f3 = bit o 6
    /\ ospfv2.IsL f2 = bit o 5 /\ ospfv3.IsL f3 = bit o 5
    /\ ospfv2.IsG f2 = bit o 4 /\ ospfv3.IsG f3 = bit o 4
    /\ ospfv2.IsP f2 = bit o 3 /\ ospfv3.IsP f3 = bit o 3.
Proof.
  eexists _, _. split; [reflexivity |]. split; [reflexivity |].
  destruct o; vm_compute; repeat split.
Qed.

(** An ISIS flags value is read back from the octet it stands for. *)
Lemma isis_flags_of_octet (f : isis.adjISISFlags) :
  let n := spec_flags_octet (ISISFlags f) in
  f = {| isis.F := N.testbit n 7; isis.B := N.testbit n 6;
         isis.V := N.testbit n 5; isis.L := N.testbit n 4;
         isis.S := N.testbit n 3; isis.P := N.testbit n 2 |}.
Proof. destruct f as [[] [] [] [] [] []]; reflexivity. Qed.

Lemma ospfv2_flags_of_octet (f : ospfv2.adjOSPFv2Flags) :
  let n := spec_flags_octet (OSPFv2Flags f) in
  f = {| ospfv2.B := N.testbit n 7; ospfv2.V := N.testbit n 6;
         ospfv2.L := N.testbit n 5; ospfv2.G := N.testbit n 4;
         ospfv2.P := N.testbit n 3 |}.
Proof. destruct f as [[] [] [] [] []]; reflexivity. Qed.

(** X8: two octets decode to the same ISIS flags exactly when they agree on
    their six high bits; the two low bits never show in the result. *)
Theorem X8_isis_flags_ignore_two_low_bits (o o' : byte) :
  UnmarshalAdjacencySIDISISFlags o = UnmarshalAdjacencySIDISISFlags o'
  <-> N.land (Byte.to_N o) 0xfc = N.land (Byte.to_N o') 0xfc.
Proof.
  rewrite <- !ISISFlags_octet. split; [now intros -> |].
  unfold UnmarshalAdjacencySIDISISFlags. intros Hoct. f_equal.
  match goal with
  | |- ?f = ?g =>
      rewrite (isis_flags_of_octet f), (isis_flags_of_octet g)
  end.
  cbv zeta. now rewrite Hoct.
Qed.

(** X9: two octets decode to the same OSPFv2 flags exactly when they agree
    on their five high bits. *)
Theorem X9_ospfv2_flags_ignore_three_low_bits (o o' : byte) :
  UnmarshalAdjacencySIDOSPFv2Flags o = UnmarshalAdjacencySIDOSPFv2Flags o'
  <-> N.land (Byte.to_N o) 0xf8 = N.land (Byte.to_N o') 0xf8.
Proof.
  rewrite <- !OSPFv2Flags_octet. split; [now intros -> |].
  unfold UnmarshalAdjacencySIDOSPFv2Flags. intros Hoct. f_equal.
  match goal with
  | |- ?f = ?g =>
      rewrite (ospfv2_flags_of_octet f), (ospfv2_flags_of_octet g)
  end.
  cbv zeta. now rewrite Hoct.
Qed.

(** The object an ISIS-shaped value decoded from [o] is written as. *)
Lemma marshal_decoded_isis (o : byte) :
  MarshalJSON (UnmarshalAdjacencySIDISISFlags o)
  = (Raw (JObject [("f_flag", JBool (bit o 7)); ("b_flag", JBool (bit o 6));
                   ("v_flag", JBool (bit o 5)); ("l_flag", JBool (bit o 4));
                   ("s_flag", JBool (bit o 3)); ("p_flag", JBool (bit o 2))]),
     None).
Proof. destruct o; reflexivity. Qed.

(** X10: under every recognized tag, the OSPF ones included, the flags
    decoded from at least four bytes are written to JSON as the six members
    [f_flag] to [p_flag] holding bits 7 down to 2 of the flags octet, and the
    marshalling reports no error. *)
Theorem X10_decoded_flags_marshal_six_members (protoID : ProtoID) (b : list byte) :
  recognized protoID = true ->
  (4 <= len b)%Z ->
  exists asid f o,
    UnmarshalAdjacencySIDTLV protoID b = Returns (Some asid, None)
    /\ Flags asid = Some f
    /\ b !! 0%nat = Some o
    /\ MarshalJSON f
       = (Raw (JObject [("f_flag", JBool (bit o 7)); ("b_flag", JBool (bit o 6));
                        ("v_flag", JBool (bit o 5)); ("l_flag", JBool (bit o 4));
                        ("s_flag", JBool (bit o 3)); ("p_flag", JBool (bit o 2))]),
          None).
Proof.
  intros Htag Hb. destruct (four_bytes b Hb) as (o & w & r1 & r2 & rest & ->).
  eexists _, (UnmarshalAdjacencySIDISISFlags o), o.
  split; [apply Unmarshal_header |]. cbn [Flags].
  split; [now destruct protoID |]. split; [reflexivity |].
  apply marshal_decoded_isis.
Qed.

Lemma X10_decoded_flags_marshal_six_members_witness :
  recognized OSPFv2 = true
  /\ (4 <= len ospf_tlv)%Z
  /\ exists asid f o,
       UnmarshalAdjacencySIDTLV OSPFv2 ospf_tlv = Returns (Some asid, None)
       /\ Flags asid = Some f
       /\ ospf_tlv !! 0%nat = Some o
       /\ MarshalJSON f
          = (Raw (JObject [("f_flag", JBool (bit o 7)); ("b_flag", JBool (bit o 6));
                           ("v_flag", JBool (bit o 5)); ("l_flag", JBool (bit o 4));
                           ("s_flag", JBool (bit o 3)); ("p_flag", JBool (bit o 2))]),
             None).
Proof.
  assert (Htag : recognized OSPFv2 = true) by reflexivity.
  assert (Hlen : (4 <= len ospf_tlv)%Z) by (vm_compute; discriminate).
  split; [exact Htag |]. split; [exact Hlen |].
  exact (X10_decoded_flags_marshal_six_members OSPFv2 ospf_tlv Htag Hlen).
Defined.

(** ** Further properties of the JSON path *)

(** X11: an ISIS flags value written by [MarshalJSON] and built again from
    the object under either ISIS tag is the value itself. *)
Theorem X11_isis_json_round_trip (f : isis.adjISISFlags) :
  (MarshalJSON (ISISFlags f)).2 = None
  /\ rebuilt ISISL1 (ISISFlags f) = Ok (Some (ISISFlags f))
  /\ rebuilt ISISL2 (ISISFlags f) = Ok (Some (ISISFlags f)).
Proof. split; [reflexivity | apply rebuilt_isis]. Qed.

(** X12: under an ISIS tag the flags decoded from at least four bytes survive
    the way through JSON: marshalled and built again under the same tag they
    are the decoded flags. *)
Theorem X12_isis_binary_to_json_round_trip (protoID : ProtoID) (b : list byte) :
  protoID = ISISL1 \/ protoID = ISISL2 ->
  (4 <= len b)%Z ->
  exists asid f,
    UnmarshalAdjacencySIDTLV protoID b = Returns (Some asid, None)
    /\ Flags asid = Some f
    /\ rebuilt protoID f = Ok (Some f).
Proof.
  intros Htag Hb. destruct (four_bytes b Hb) as (o & w & r1 & r2 & rest & ->).
  eexists _, (UnmarshalAdjacencySIDISISFlags o).
  split; [apply Unmarshal_header |]. cbn [Flags].
  unfold UnmarshalAdjacencySIDISISFlags.
  destruct Htag as [-> | ->]; (split; [reflexivity | apply rebuilt_isis]).
Qed.

Lemma X12_isis_binary_to_json_round_trip_witness :
  (ISISL2 = ISISL1 \/ ISISL2 = ISISL2)
  /\ (4 <= len scenario_tlv)%Z
  /\ exists asid f,
       UnmarshalAdjacencySIDTLV ISISL2 scenario_tlv = Returns (Some asid, None)
       /\ Flags asid = Some f
       /\ rebuilt ISISL2 f = Ok (Some f).
Proof.
  assert (Htag : ISISL2 = ISISL1 \/ ISISL2 = ISISL2) by (right; reflexivity).
  assert (Hlen : (4 <= len scenario_tlv)%Z) by (vm_compute; discriminate).
  split; [exact Htag |]. split; [exact Hlen |].
  exact (X12_isis_binary_to_json_round_trip ISISL2 scenario_tlv Htag Hlen).
Defined.

(** X13: an OSPFv2 or OSPFv3 flags value written by [MarshalJSON] and built
    again under its tag comes back with B, V, L and P as they were and G
    false; it is the value itself exactly when G was false. *)
Theorem X13_ospf_json_round_trip_iff_G_clear
  (f2 : ospfv2.adjOSPFv2Flags) (f3 : ospfv3.adjOSPFv3Flags) :
  (rebuilt OSPFv2 (OSPFv2Flags f2) = Ok (Some (OSPFv2Flags f2))
   <-> ospfv2.G f2 = false)
  /\ (rebuilt OSPFv3 (OSPFv3Flags f3) = Ok (Some (OSPFv3Flags f3))
      <-> ospfv3.G f3 = false)
  /\ rebuilt OSPFv2 (OSPFv2Flags f2)
     = Ok (Some (OSPFv2Flags {| ospfv2.B := ospfv2.B f2; ospfv2.V := ospfv2.V f2;
                                ospfv2.L := ospfv2.L f2; ospfv2.G := false;
                                ospfv2.P := ospfv2.P f2 |}))
  /\ rebuilt OSPFv3 (OSPFv3Flags f3)
     = Ok (Some (OSPFv3Flags {| ospfv3.B := ospfv3.B f3; ospfv3.V := ospfv3.V f3;
                                ospfv3.L := ospfv3.L f3; ospfv3.G := false;
                                ospfv3.P := ospfv3.P f3 |})).
Proof.
  rewrite rebuilt_ospfv2, rebuilt_ospfv3.
  destruct f2 as [b2 v2 l2 g2 p2], f3 as [b3 v3 l3 g3 p3]. cbn.
  repeat split; try (intros [= <-]; reflexivity); now intros ->.
Qed.

Lemma bool_field_agree (fo fo' : gmap string RawMessage) (key : string) (cur : bool) :
  fo !! key = fo' !! key -> bool_field fo key cur = bool_field fo' key cur.
Proof. unfold bool_field. now intros ->. Qed.

(** X14: a flags builder reads the keys of its own variant and nothing else:
    two objects that agree on those keys build the same result, error
    included. *)
Theorem X14_flag_builders_read_only_their_keys
  (protoID : ProtoID) (fo fo' : gmap string RawMessage) :
  Forall (fun key => fo !! key = fo' !! key) (spec_flag_keys protoID) ->
  buildFlags protoID fo = buildFlags protoID fo'.
Proof.
  rewrite Forall_forall. intros Hagree.
  destruct protoID; cbn [spec_flag_keys] in Hagree;
    unfold buildFlags, buildAdjISISFlags, buildAdjOSPFv2Flags, buildAdjOSPFv3Flags;
    repeat match goal with
      | |- context [bool_field fo ?k false] =>
          rewrite (bool_field_agree fo fo' k false) by (apply Hagree; set_solver)
      end;
    reflexivity.
Qed.

Lemma X14_flag_builders_read_only_their_keys_witness :
  Forall (fun key => (g_fields : gmap string RawMessage) !! key
                     = (<["s_flag" := Raw (JNumber (Integer 3))]> g_fields) !! key)
         (spec_flag_keys OSPFv3)
  /\ buildFlags OSPFv3 g_fields
     = buildFlags OSPFv3 (<["s_flag" := Raw (JNumber (Integer 3))]> g_fields).
Proof.
  assert (Hagree :
    Forall (fun key => (g_fields : gmap string RawMessage) !! key
                       = (<["s_flag" := Raw (JNumber (Integer 3))]> g_fields) !! key)
           (spec_flag_keys OSPFv3))
    by (repeat (constructor; [vm_compute; reflexivity |]); constructor).
  split; [exact Hagree |].
  exact (X14_flag_builders_read_only_their_keys OSPFv3 _ _ Hagree).
Defined.

(** X15: the TLV builder reads the keys [flags], [weight] and [sid] and
    nothing else: a member under any other name changes nothing. *)
Theorem X15_build_ignores_other_keys
  (protoID : ProtoID) (b : gmap string RawMessage) (key : string) (v : RawMessage) :
  key <> "flags" -> key <> "weight" -> key <> "sid" ->
  BuildAdjacencySID protoID (<[key := v]> b) = BuildAdjacencySID protoID b.
Proof.
  intros Hf Hw Hs. unfold BuildAdjacencySID.
  now rewrite !lookup_insert_ne by assumption.
Qed.

Lemma X15_build_ignores_other_keys_witness :
  "prefix_sid" <> "flags" /\ "prefix_sid" <> "weight" /\ "prefix_sid" <> "sid"
  /\ BuildAdjacencySID OSPFv2 (<["prefix_sid" := Malformed]> scenario_fields)
     = BuildAdjacencySID OSPFv2 scenario_fields.
Proof.
  assert (Hf : "prefix_sid" <> "flags") by discriminate.
  assert (Hw : "prefix_sid" <> "weight") by discriminate.
  assert (Hs : "prefix_sid" <> "sid") by discriminate.
  split; [exact Hf |]. split; [exact Hw |]. split; [exact Hs |].
  exact (X15_build_ignores_other_keys OSPFv2 scenario_fields "prefix_sid"
           Malformed Hf Hw Hs).
Defined.

(** The type of the value a selected builder returns. *)
Lemma buildFlags_variant (protoID : ProtoID) (fo : gmap string RawMessage)
    (f : option AdjacencySIDFlags) :
  buildFlags protoID fo = Ok f ->
  match f with
  | None => recognized protoID = false
  | Some (ISISFlags _) => protoID = ISISL1 \/ protoID = ISISL2
  | Some (OSPFv2Flags _) => protoID = OSPFv2
  | Some (OSPFv3Flags _) => protoID = OSPFv3
  end.
Proof.
  destruct protoID;
    unfold buildFlags, buildAdjISISFlags, buildAdjOSPFv2Flags, buildAdjOSPFv3Flags;
    repeat match goal with
      | |- context [bool_field fo ?k false] =>
          destruct (bool_field fo k false); cbn
      end;
    intros [= <-]; auto.
Qed.

(** The three steps of the builder, once each has succeeded. *)
Lemma Build_Ok (protoID : ProtoID) (b : gmap string RawMessage) (asid : AdjacencySIDTLV) :
  BuildAdjacencySID protoID b = (Some asid, None) ->
  match b !! "flags" with
  | Some v => exists fo, Unmarshal_map v = Ok fo
                         /\ buildFlags protoID fo = Ok (Flags asid)
  | None => Flags asid = None
  end
  /\ match b !! "weight" with
     | Some v => Unmarshal_uint8 v x00 = Ok (Weight asid)
     | None => Weight asid = x00
     end
  /\ match b !! "sid" with
     | Some v => Unmarshal_bytes v = Ok (SID asid)
     | None => SID asid = []
     end.
Proof.
  unfold BuildAdjacencySID.
  destruct (b !! "flags") as [vf |];
    [destruct (Unmarshal_map vf) as [fo | e]; cbn;
     [destruct (buildFlags protoID fo) as [fl | e] eqn:Hfl; cbn |] |];
    (destruct (b !! "weight") as [vw |];
     [destruct (Unmarshal_uint8 vw x00) as [w | e']; cbn |]);
    (destruct (b !! "sid") as [vs |];
     [destruct (Unmarshal_bytes vs) as [s | e'']; cbn |]);
    cbn; intros [= <-]; cbn; eauto.
Qed.

(** X16: the JSON builder, unlike the binary decoder, types the flags by the
    tag: in a returned object they are ISIS-shaped only under an ISIS tag, of
    the OSPFv2 type only under OSPFv2, of the OSPFv3 type only under OSPFv3,
    and nil only when the [flags] key is absent or the tag is not
    recognized. *)
Theorem X16_build_types_flags_by_tag
  (protoID : ProtoID) (b : gmap string RawMessage) (asid : AdjacencySIDTLV) :
  BuildAdjacencySID protoID b = (Some asid, None) ->
  match Flags asid with
  | None => b !! "flags" = None \/ recognized protoID = false
  | Some (ISISFlags _) => protoID = ISISL1 \/ protoID = ISISL2
  | Some (OSPFv2Flags _) => protoID = OSPFv2
  | Some (OSPFv3Flags _) => protoID = OSPFv3
  end.
Proof.
  intros Hb. apply Build_Ok in Hb as (Hf & _ & _).
  destruct (b !! "flags") as [v |].
  - destruct Hf as (fo & _ & Hfl). apply buildFlags_variant in Hfl.
    destruct (Flags asid) as [[] |]; auto.
  - rewrite Hf. now left.
Qed.

Lemma X16_build_types_flags_by_tag_witness :
  BuildAdjacencySID OSPFv2 scenario_fields
  = (Some {| Flags := Some (OSPFv2Flags {| ospfv2.B := true; ospfv2.V := false;
                                           ospfv2.L := false; ospfv2.G := false;
                                           ospfv2.P := true |});
             Weight := x05; SID := [x09; x09; x09; x09] |},
     None)
  /\ OSPFv2 = OSPFv2.
Proof.
  assert (Hb : BuildAdjacencySID OSPFv2 scenario_fields
               = (Some {| Flags := Some (OSPFv2Flags
                                     {| ospfv2.B := true; ospfv2.V := false;
                                        ospfv2.L := false; ospfv2.G := false;
                                        ospfv2.P := true |});
                          Weight := x05; SID := [x09; x09; x09; x09] |},
                  None)) by (vm_compute; reflexivity).
  split; [exact Hb |].
  exact (X16_build_types_flags_by_tag OSPFv2 scenario_fields _ Hb).
Defined.

(** X17: under a tag that is not recognized the builder still parses the
    value of [flags] as an object and returns its error, but never looks
    inside: with an object there the result is what it is without the key. *)
Theorem X17_build_unrecognized_tag_skips_flags
  (code : N) (b : gmap string RawMessage) (v : RawMessage) :
  b !! "flags" = Some v ->
  match Unmarshal_map v with
  | Ok _ =>
      BuildAdjacencySID (OtherProto code) b
      = BuildAdjacencySID (OtherProto code) (delete "flags" b)
  | Err e => BuildAdjacencySID (OtherProto code) b = (None, Some e)
  end.
Proof.
  intros Hv. unfold BuildAdjacencySID.
  rewrite Hv, lookup_delete_eq, !lookup_delete_ne by discriminate.
  now destruct (Unmarshal_map v).
Qed.

Lemma X17_build_unrecognized_tag_skips_flags_witness :
  scenario_fields !! "flags"
  = Some (Raw (JObject [("b_flag", JBool true); ("p_flag", JBool true)]))
  /\ match Unmarshal_map
             (Raw (JObject [("b_flag", JBool true); ("p_flag", JBool true)])) with
     | Ok _ =>
         BuildAdjacencySID (OtherProto 7) scenario_fields
         = BuildAdjacencySID (OtherProto 7) (delete "flags" scenario_fields)
     | Err e => BuildAdjacencySID (OtherProto 7) scenario_fields = (None, Some e)
     end.
Proof.
  assert (Hv : scenario_fields !! "flags"
               = Some (Raw (JObject [("b_flag", JBool true); ("p_flag", JBool true)])))
    by (vm_compute; reflexivity).
  split; [exact Hv |].
  exact (X17_build_unrecognized_tag_skips_flags 7 scenario_fields _ Hv).
Defined.

(** X18: in the flags a builder returns, a named bit is set exactly when its
    key holds the JSON literal [true]; an absent key, [false] and [null] all
    leave it clear. *)
Theorem X18_flag_set_iff_key_holds_true
  (protoID : ProtoID) (fo : gmap string RawMessage) (f : AdjacencySIDFlags)
  (key : string) (x : bool) :
  recognized protoID = true ->
  buildFlags protoID fo = Ok (Some f) ->
  (key, x) ∈ spec_named_flags f ->
  (x = true <-> fo !! key = Some (Raw (JBool true))).
Proof.
  intros Htag Hf Hin. pose proof (buildFlags_spec protoID fo Htag) as Hspec.
  rewrite Hf in Hspec. destruct Hspec as [_ Hall].
  rewrite Forall_forall in Hall. specialize (Hall _ Hin). cbn in Hall.
  unfold bool_field in Hall.
  destruct (fo !! key) as [[[| [] | | | |] |] |]; cbn in Hall;
    try discriminate Hall; injection Hall as <-;
    split; first [discriminate | reflexivity | intros [=]].
Qed.

Lemma X18_flag_set_iff_key_holds_true_witness :
  recognized OSPFv2 = true
  /\ buildFlags OSPFv2 g_fields = Ok (Some (OSPFv2Flags g_only))
  /\ ("g_flag", true) ∈ spec_named_flags (OSPFv2Flags g_only)
  /\ (true = true <-> g_fields !! "g_flag" = Some (Raw (JBool true))).
Proof.
  assert (Htag : recognized OSPFv2 = true) by reflexivity.
  assert (Hf : buildFlags OSPFv2 g_fields = Ok (Some (OSPFv2Flags g_only)))
    by (vm_compute; reflexivity).
  assert (Hin : ("g_flag", true) ∈ spec_named_flags (OSPFv2Flags g_only))
    by (cbn; set_solver).
  split; [exact Htag |]. split; [exact Hf |]. split; [exact Hin |].
  exact (X18_flag_set_iff_key_holds_true OSPFv2 g_fields _ "g_flag" true
           Htag Hf Hin).
Defined.

(** X19: when [weight] holds an integer literal and the builder returns an
    object, the literal was within 0..255 and is the weight of the object. *)
Theorem X19_build_weight_is_the_literal
  (protoID : ProtoID) (b : gmap string RawMessage) (z : Z) (asid : AdjacencySIDTLV) :
  b !! "weight" = Some (Raw (JNumber (Integer z))) ->
  BuildAdjacencySID protoID b = (Some asid, None) ->
  (0 <= z <= 255)%Z /\ Z.of_N (Byte.to_N (Weight asid)) = z.
Proof.
  intros Hw Hb. apply Build_Ok in Hb as (_ & Hweight & _).
  rewrite Hw in Hweight. cbn in Hweight.
  destruct (Z.ltb_spec z 0) as [Hneg | Hpos]; [discriminate Hweight |].
  destruct (Byte.of_N (Z.to_N z)) as [w |] eqn:Hof; [| discriminate Hweight].
  injection Hweight as <-. apply Byte.to_of_N in Hof.
  pose proof (Byte.to_N_bounded w) as Hbound. lia.
Qed.

Lemma X19_build_weight_is_the_literal_witness :
  scenario_fields !! "weight" = Some (Raw (JNumber (Integer 5)))
  /\ BuildAdjacencySID OSPFv2 scenario_fields
     = (Some {| Flags := Some (OSPFv2Flags {| ospfv2.B := true; ospfv2.V := false;
                                              ospfv2.L := false; ospfv2.G := false;
                                              ospfv2.P := true |});
                Weight := x05; SID := [x09; x09; x09; x09] |},
        None)
  /\ (0 <= 5 <= 255)%Z /\ Z.of_N (Byte.to_N x05) = 5%Z.
Proof.
  assert (Hw : scenario_fields !! "weight" = Some (Raw (JNumber (Integer 5))))
    by (vm_compute; reflexivity).
  assert (Hb : BuildAdjacencySID OSPFv2 scenario_fields
               = (Some {| Flags := Some (OSPFv2Flags
                                     {| ospfv2.B := true; ospfv2.V := false;
                                        ospfv2.L := false; ospfv2.G := false;
                                        ospfv2.P := true |});
                          Weight := x05; SID := [x09; x09; x09; x09] |},
                  None)) by (vm_compute; reflexivity).
  split; [exact Hw |]. split; [exact Hb |].
  exact (X19_build_weight_is_the_literal OSPFv2 scenario_fields 5 _ Hw Hb).
Defined.

